(** * The HTTP task/auth client of the todo application

    A shallow embedding of the [ApiClient] class (the request helper, the
    task and auth operations, [logout] and [isAuthenticated]) together with
    the parts of the JavaScript runtime it talks to: JSON values and
    [JSON.stringify], the [window] global with its [localStorage], the
    console, [fetch] and the [Response] it resolves to. *)

From Stdlib Require Import ZArith String Ascii List DecimalString DecimalPos DecimalZ.
From stdpp Require Import gmap strings.
Import ListNotations.
Open Scope string_scope.
Open Scope Z_scope.
#[local] Set Warnings "-register-all".

(** ** JavaScript values *)

(** What [JSON.parse] (and so [response.json()]) can produce.  An object is
    the list of its own properties in enumeration order, each key once.
    Numbers are the integral ones, which print as plain decimals.  Strings
    are byte strings: text in UTF-8, whose bytes from 128 on stand for
    themselves wherever a string is copied or quoted. *)
Inductive json : Type :=
  | JNull
  | JBool (b : bool)
  | JNum (n : Z)
  | JStr (s : string)
  | JArr (items : list json)
  | JObj (props : list (string * json)).

(** A value that may also be [undefined]. *)
Inductive value : Type :=
  | VUndefined
  | VJson (j : json).

(** What a call can throw (or a promise reject with).  Only [Error] is
    built by the client, with its message; the others come from the
    runtime and their messages are the engine's. *)
Inductive exn : Type :=
  | Error (message : string)
  | TypeError
  | ReferenceError
  | JsonRejected
  | FetchRejected.

(** The string of a number, as a template literal or [JSON.stringify]
    prints an integer. *)
Definition num_to_string (n : Z) : string :=
  NilZero.string_of_int (Z.to_int n).

Definition hex_digit (n : N) : ascii :=
  match n with
  | 0 => "0" | 1 => "1" | 2 => "2" | 3 => "3" | 4 => "4" | 5 => "5"
  | 6 => "6" | 7 => "7" | 8 => "8" | 9 => "9" | 10 => "a" | 11 => "b"
  | 12 => "c" | 13 => "d" | 14 => "e" | _ => "f"
  end%N%char.

(** One character inside a JSON string literal: the short escapes, a
    [\u00xx] escape for the other control characters, the character itself
    otherwise. *)
Definition quote_char (c : ascii) : string :=
  let n := N_of_ascii c in
  match n with
  | 8 => "\b" | 9 => "\t" | 10 => "\n" | 12 => "\f" | 13 => "\r"
  | 34 => String "\" (String c "")
  | 92 => "\\"
  | _ => if (n <? 32)%N
         then "\u00" +:+ String (hex_digit (n / 16)) (String (hex_digit (n mod 16)) "")
         else String c ""
  end%N.

Fixpoint quote_chars (s : string) : string :=
  match s with
  | EmptyString => ""
  | String c s' => quote_char c +:+ quote_chars s'
  end.

Definition dquote : string := String (ascii_of_N 34) "".

(** [JSON.stringify] of a string: the escaped characters between quotes. *)
Definition quote (s : string) : string := dquote +:+ quote_chars s +:+ dquote.

Definition comma_join (parts : list string) : string := String.concat "," parts.

(** [JSON.stringify(v)] without indentation. *)
Fixpoint JSON_stringify (v : json) : string :=
  match v with
  | JNull => "null"
  | JBool true => "true"
  | JBool false => "false"
  | JNum n => num_to_string n
  | JStr s => quote s
  | JArr items =>
      "[" +:+ comma_join ((fix go (l : list json) : list string :=
                             match l with
                             | [] => []
                             | x :: l' => JSON_stringify x :: go l'
                             end) items) +:+ "]"
  | JObj props =>
      "{" +:+ comma_join ((fix go (l : list (string * json)) : list string :=
                             match l with
                             | [] => []
                             | (k, x) :: l' =>
                                 (quote k +:+ ":" +:+ JSON_stringify x) :: go l'
                             end) props) +:+ "}"
  end.

(** Truthiness, as [!!v], [v ? a : b] and [v || d] test it. *)
Definition truthy_string (s : string) : bool :=
  match s with EmptyString => false | String _ _ => true end.

Definition truthy_json (j : json) : bool :=
  match j with
  | JNull => false
  | JBool b => b
  | JNum n => negb (n =? 0)
  | JStr s => truthy_string s
  | JArr _ | JObj _ => true
  end.


(** A [string | null] read from storage, tested as [token ? a : b]. *)
Definition truthy_token (token : option string) : bool :=
  match token with
  | Some s => truthy_string s
  | None => false
  end.


(** The first own property named [k]. *)
Fixpoint own_property (k : string) (props : list (string * json)) : value :=
  match props with
  | [] => VUndefined
  | (k', x) :: rest => if String.eqb k k' then VJson x else own_property k rest
  end.

(** ** The runtime: window, console, network *)

(** [localStorage]: string keys to string values. *)
Abbreviation Storage := (gmap string string).

(** The global [window], as far as the client touches it: [None] where
    [typeof window === 'undefined'] (server-side rendering), otherwise the
    browser's [localStorage]. *)
Abbreviation Window := (option Storage).

(** The options object of [fetch] ([RequestInit]); [headers] a plain
    object of header names and values. *)
Record RequestInit : Type := {
  method : option string;
  body : option string;
  headers : option (gmap string string)
}.

(** The [options = {}] default. *)
Definition no_options : RequestInit :=
  {| method := None; body := None; headers := None |}.

(** What the client reads of a [Response].  [json_body] is what
    [response.json()] resolves to, [None] when it rejects (no body, or a
    body that is not JSON). *)
Record Response : Type := {
  status : Z;
  statusText : string;
  json_body : option json
}.

(** [response.ok]: the status is in the range 200 to 299. *)
Definition ok (r : Response) : bool := (200 <=? status r) && (status r <=? 299).

(** The server and the transport: the response to a request, [None] when
    [fetch] rejects. *)
Definition Network : Type := string -> RequestInit -> option Response.

(** What a call does that is visible outside it, in order. *)
Inductive event : Type :=
  | ConsoleLog (msg : string) (data : json)
  | ConsoleError (msg : string) (data : json)
  | Fetch (url : string) (init : RequestInit)
  | ReadJson
  | Navigate (href : string).

Inductive outcome (A : Type) : Type :=
  | Return (a : A)
  | Throw (e : exn).
Arguments Return {A} a.
Arguments Throw {A} e.

(** A computation: from the window before to the outcome, the window after
    and the events emitted. *)
Definition M (A : Type) : Type := Window -> outcome A * Window * list event.

Definition ret {A} (a : A) : M A := fun w => (Return a, w, []).

Definition throw {A} (e : exn) : M A := fun w => (Throw e, w, []).

Definition bind {A B} (m : M A) (f : A -> M B) : M B :=
  fun w =>
    match m w with
    | (Return a, w1, ev1) =>
        match f a w1 with
        | (o, w2, ev2) => (o, w2, (ev1 ++ ev2)%list)
        end
    | (Throw e, w1, ev1) => (Throw e, w1, ev1)
    end.

(** [p.catch(handler)] *)
Definition catch {A} (m : M A) (handler : exn -> M A) : M A :=
  fun w =>
    match m w with
    | (Return a, w1, ev1) => (Return a, w1, ev1)
    | (Throw e, w1, ev1) =>
        match handler e w1 with
        | (o, w2, ev2) => (o, w2, (ev1 ++ ev2)%list)
        end
    end.

Definition emit (e : event) : M unit := fun w => (Return tt, w, [e]).

Declare Scope js_scope.
Delimit Scope js_scope with js.
Notation "x <- m ;; k" := (bind m (fun x => k))
  (at level 100, m at next level, right associativity) : js_scope.
Notation "m ;; k" := (bind m (fun _ => k))
  (at level 100, right associativity) : js_scope.
Open Scope js_scope.

(** [typeof window !== 'undefined'] *)
Definition window_defined : M bool :=
  fun w => (Return (match w with Some _ => true | None => false end), w, []).

(** [localStorage.getItem(key)]; the name [localStorage] is not bound
    where there is no window. *)
Definition localStorage_getItem (key : string) : M (option string) :=
  fun w =>
    match w with
    | Some store => (Return (store !! key), w, [])
    | None => (Throw ReferenceError, w, [])
    end.

(** [localStorage.removeItem(key)] *)
Definition localStorage_removeItem (key : string) : M unit :=
  fun w =>
    match w with
    | Some store => (Return tt, Some (delete key store), [])
    | None => (Throw ReferenceError, w, [])
    end.

(** [window.location.href = href]; reading [window] where it is not
    declared throws. *)
Definition set_location_href (href : string) : M unit :=
  fun w =>
    match w with
    | Some _ => (Return tt, w, [Navigate href])
    | None => (Throw ReferenceError, w, [])
    end.

Definition console_log (msg : string) (data : json) : M unit :=
  emit (ConsoleLog msg data).

Definition console_error (msg : string) (data : json) : M unit :=
  emit (ConsoleError msg data).

(** [await fetch(url, init)] *)
Definition fetch (net : Network) (url : string) (init : RequestInit) : M Response :=
  emit (Fetch url init) ;;
  match net url init with
  | Some r => ret r
  | None => throw FetchRejected
  end.

(** [await response.json()] *)
Definition response_json (r : Response) : M json :=
  emit ReadJson ;;
  match json_body r with
  | Some j => ret j
  | None => throw JsonRejected
  end.

(** [errorData.detail]: reading a property of [null] throws; an object
    gives its own property; the other values have no [detail]. *)
Definition get_detail (errorData : json) : M value :=
  match errorData with
  | JNull => throw TypeError
  | JObj props => ret (own_property "detail" props)
  | _ => ret VUndefined
  end.

(** ** Request payloads *)

Record TaskCreate : Type := {
  tc_title : string;
  tc_description : option string;
  tc_completed : option bool
}.

Record TaskUpdate : Type := {
  tu_title : option string;
  tu_description : option string;
  tu_completed : option bool
}.

Record RegisterRequest : Type := {
  rr_email : string;
  rr_password : string;
  rr_name : string
}.

Record Credentials : Type := {
  cr_email : string;
  cr_password : string
}.

(** An optional property: absent from the object when not given. *)
Definition optional {A} (k : string) (f : A -> json) (o : option A) : list (string * json) :=
  match o with
  | Some a => [(k, f a)]
  | None => []
  end.

(** The payloads as the objects [JSON.stringify] sees, properties in the
    order of the type declarations. *)
Definition TaskCreate_object (t : TaskCreate) : json :=
  JObj ([("title", JStr (tc_title t))]
        ++ optional "description" JStr (tc_description t)
        ++ optional "completed" JBool (tc_completed t))%list.

Definition TaskUpdate_object (t : TaskUpdate) : json :=
  JObj (optional "title" JStr (tu_title t)
        ++ optional "description" JStr (tu_description t)
        ++ optional "completed" JBool (tu_completed t))%list.

Definition RegisterRequest_object (u : RegisterRequest) : json :=
  JObj [("email", JStr (rr_email u)); ("password", JStr (rr_password u));
        ("name", JStr (rr_name u))].

Definition Credentials_object (c : Credentials) : json :=
  JObj [("email", JStr (cr_email c)); ("password", JStr (cr_password c))].

(** ** The client *)

Record ApiClient : Type := { baseUrl : string }.

(** [s || d] on an optional string. *)
Definition or_default (s : option string) (d : string) : string :=
  match s with
  | Some x => if truthy_string x then x else d
  | None => d
  end.

(** The constructor, given [process.env.NEXT_PUBLIC_API_BASE_URL]. *)
Definition new_ApiClient (NEXT_PUBLIC_API_BASE_URL : option string) : ApiClient :=
  {| baseUrl := or_default NEXT_PUBLIC_API_BASE_URL "http://localhost:8000" |}.

(** Object spread [{ ...target, ...source }]: the properties of [source]
    win. *)
Definition spread (target source : gmap string string) : gmap string string :=
  source ∪ target.

(** [token ? { 'Authorization': `Bearer ${token}` } : {}] *)
Definition bearer (token : option string) : gmap string string :=
  match token with
  | Some t => if truthy_string t then {[ "Authorization" := "Bearer " +:+ t ]} else ∅
  | None => ∅
  end.

(** The [headers] object of [request]. *)
Definition request_headers (token : option string) (options : RequestInit)
  : gmap string string :=
  spread (spread {[ "Content-Type" := "application/json" ]} (bearer token))
         (default ∅ (headers options)).

(** The token as [request] reads it. *)
Definition read_token : M (option string) :=
  browser <- window_defined ;;
  if browser then localStorage_getItem "accessToken" else ret None.

(** [errorDetail] on the 401/403 path. *)
Definition auth_error_detail (detail : value) : string :=
  match detail with
  | VJson (JStr s) => s
  | VJson j => JSON_stringify (if truthy_json j then j else JStr "Unauthorized")
  | VUndefined => JSON_stringify (JStr "Unauthorized")
  end.

(** [`API request failed: ${response.status} - ${response.statusText}`] *)
Definition status_message (r : Response) : string :=
  "API request failed: " +:+ num_to_string (status r) +:+ " - " +:+ statusText r.

(** [errorDetail] on the other error path. *)
Definition api_error_detail (detail : value) (r : Response) : string :=
  match detail with
  | VJson (JStr s) => s
  | VJson j => if truthy_json j then JSON_stringify j else status_message r
  | VUndefined => status_message r
  end.

(** The two [removeItem] calls under their [typeof window] guard. *)
Definition clear_tokens : M unit :=
  browser <- window_defined ;;
  if browser
  then (localStorage_removeItem "accessToken" ;; localStorage_removeItem "refreshToken")
  else ret tt.

Definition error_info (endpoint : string) (r : Response) : json :=
  JObj [("endpoint", JStr endpoint); ("status", JNum (status r))].

(** The part of [ApiClient.request] that follows the [fetch]: the 401/403
    branch, the other failures, the 204 case and the JSON result. *)
Definition handle_response (endpoint : string) (response : Response) : M value :=
  if (status response =? 401) || (status response =? 403) then
    errorData <- catch (response_json response) (fun _ => ret (JObj [])) ;;
    detail <- get_detail errorData ;;
    let errorDetail := auth_error_detail detail in
    console_error ("Auth Error: " +:+ errorDetail) (error_info endpoint response) ;;
    clear_tokens ;;
    set_location_href "/auth/signin" ;;
    throw (Error errorDetail)
  else if negb (ok response) then
    errorData <- catch (response_json response) (fun _ => ret (JObj [])) ;;
    detail <- get_detail errorData ;;
    let errorDetail := api_error_detail detail response in
    console_error ("API Error: " +:+ errorDetail) (error_info endpoint response) ;;
    throw (Error errorDetail)
  else if status response =? 204 then
    ret VUndefined
  else
    data <- response_json response ;;
    console_log ("API Response: " +:+ endpoint) data ;;
    ret (VJson data).

(** [ApiClient.request] *)
Definition request (c : ApiClient) (net : Network) (endpoint : string)
    (options : RequestInit) : M value :=
  token <- read_token ;;
  let hdrs := request_headers token options in
  console_log ("API Request: " +:+ or_default (method options) "GET" +:+ " "
               +:+ baseUrl c +:+ endpoint)
              (JObj [("hasToken", JBool (truthy_token token))]) ;;
  response <- fetch net (baseUrl c +:+ endpoint)
                {| method := method options; body := body options;
                   headers := Some hdrs |} ;;
  handle_response endpoint response.

(** *** Task operations *)

Definition with_body (m : string) (payload : json) : RequestInit :=
  {| method := Some m; body := Some (JSON_stringify payload); headers := None |}.

Definition getTasks (c : ApiClient) (net : Network) : M value :=
  request c net "/tasks/" no_options.

Definition createTask (c : ApiClient) (net : Network) (task : TaskCreate) : M value :=
  request c net "/tasks/" (with_body "POST" (TaskCreate_object task)).

Definition getTaskById (c : ApiClient) (net : Network) (id : Z) : M value :=
  request c net ("/tasks/" +:+ num_to_string id) no_options.

Definition updateTask (c : ApiClient) (net : Network) (id : Z) (task : TaskUpdate)
  : M value :=
  request c net ("/tasks/" +:+ num_to_string id) (with_body "PUT" (TaskUpdate_object task)).

Definition deleteTask (c : ApiClient) (net : Network) (id : Z) : M value :=
  request c net ("/tasks/" +:+ num_to_string id)
          {| method := Some "DELETE"; body := None; headers := None |}.

Definition toggleTaskCompletion (c : ApiClient) (net : Network) (id : Z)
    (completed : bool) : M value :=
  request c net ("/tasks/" +:+ num_to_string id +:+ "/complete")
          (with_body "PATCH" (JObj [("completed", JBool completed)])).

Definition getTaskStatistics (c : ApiClient) (net : Network) : M value :=
  request c net "/tasks/statistics" no_options.

(** *** Auth operations *)

Definition register (c : ApiClient) (net : Network) (userData : RegisterRequest)
  : M value :=
  request c net "/auth/register" (with_body "POST" (RegisterRequest_object userData)).

Definition login (c : ApiClient) (net : Network) (credentials : Credentials) : M value :=
  request c net "/auth/login" (with_body "POST" (Credentials_object credentials)).

Definition logout : M unit :=
  browser <- window_defined ;;
  if browser
  then (localStorage_removeItem "accessToken" ;; localStorage_removeItem "refreshToken")
  else ret tt.

Definition isAuthenticated : M bool :=
  browser <- window_defined ;;
  if browser
  then (token <- localStorage_getItem "accessToken" ;; ret (truthy_token token))
  else ret false.

(** Every operation of the client that sends a request. *)
Inductive call : Type :=
  | GetTasks
  | CreateTask (task : TaskCreate)
  | GetTaskById (id : Z)
  | UpdateTask (id : Z) (task : TaskUpdate)
  | DeleteTask (id : Z)
  | ToggleTaskCompletion (id : Z) (completed : bool)
  | GetTaskStatistics
  | Register (userData : RegisterRequest)
  | Login (credentials : Credentials).

Definition perform (c : ApiClient) (net : Network) (op : call) : M value :=
  match op with
  | GetTasks => getTasks c net
  | CreateTask task => createTask c net task
  | GetTaskById id => getTaskById c net id
  | UpdateTask id task => updateTask c net id task
  | DeleteTask id => deleteTask c net id
  | ToggleTaskCompletion id completed => toggleTaskCompletion c net id completed
  | GetTaskStatistics => getTaskStatistics c net
  | Register userData => register c net userData
  | Login credentials => login c net credentials
  end.

(** ** Reading the result of a run *)

Definition result_of {A} (r : outcome A * Window * list event) : outcome A := fst (fst r).
Definition window_of {A} (r : outcome A * Window * list event) : Window := snd (fst r).
Definition events_of {A} (r : outcome A * Window * list event) : list event := snd r.

(** The requests among the events. *)
Fixpoint fetches (evs : list event) : list (string * RequestInit) :=
  match evs with
  | [] => []
  | Fetch url init :: rest => (url, init) :: fetches rest
  | _ :: rest => fetches rest
  end.


(** The value stored under the access-token key, if there is a storage
    and it holds one. *)
Definition stored_access_token (w : Window) : option string :=
  match w with
  | Some store => store !! "accessToken"
  | None => None
  end.

(** The options [request] hands to [fetch] when started in window [w]. *)
Definition sent_init (w : Window) (options : RequestInit) : RequestInit :=
  {| method := method options; body := body options;
     headers := Some (request_headers (stored_access_token w) options) |}.

(** The response [request] receives, [None] when the transport fails. *)
Definition response_to (c : ApiClient) (net : Network) (endpoint : string)
    (options : RequestInit) (w : Window) : option Response :=
  net (baseUrl c +:+ endpoint) (sent_init w options).

(** The [detail] field of a response's JSON body, [undefined] when the
    body is missing, unparsable or has no such field. *)
Definition detail_of (r : Response) : value :=
  match json_body r with
  | Some (JObj props) => own_property "detail" props
  | _ => VUndefined
  end.

(** The request line logged before the fetch. *)
Definition request_log (c : ApiClient) (endpoint : string) (options : RequestInit)
    (w : Window) : event :=
  ConsoleLog ("API Request: " +:+ or_default (method options) "GET" +:+ " "
              +:+ baseUrl c +:+ endpoint)
             (JObj [("hasToken", JBool (truthy_token (stored_access_token w)))]).

(** The test of the first branch: [status === 401 || status === 403]. *)
Definition is_auth_status (r : Response) : bool :=
  (status r =? 401) || (status r =? 403).

(** A client, a storage and some servers to run the operations against. *)
Definition local_client : ApiClient := new_ApiClient None.

Definition both_tokens : gmap string string :=
  <["accessToken" := "tok-a"]> (<["refreshToken" := "tok-r"]> ∅).

Definition replies (st : Z) (text : string) (b : option json) : Network :=
  fun _ _ => Some {| status := st; statusText := text; json_body := b |}.

(** The operations as calls of [request]: the endpoint and the options
    each one passes. *)
Definition endpoint_of (op : call) : string :=
  match op with
  | GetTasks | CreateTask _ => "/tasks/"
  | GetTaskById id | UpdateTask id _ | DeleteTask id => "/tasks/" +:+ num_to_string id
  | ToggleTaskCompletion id _ => "/tasks/" +:+ num_to_string id +:+ "/complete"
  | GetTaskStatistics => "/tasks/statistics"
  | Register _ => "/auth/register"
  | Login _ => "/auth/login"
  end.

Definition options_of (op : call) : RequestInit :=
  match op with
  | GetTasks | GetTaskById _ | GetTaskStatistics => no_options
  | CreateTask task => with_body "POST" (TaskCreate_object task)
  | UpdateTask _ task => with_body "PUT" (TaskUpdate_object task)
  | DeleteTask _ => {| method := Some "DELETE"; body := None; headers := None |}
  | ToggleTaskCompletion _ completed =>
      with_body "PATCH" (JObj [("completed", JBool completed)])
  | Register userData => with_body "POST" (RegisterRequest_object userData)
  | Login credentials => with_body "POST" (Credentials_object credentials)
  end.

Definition a_at_b : Credentials := {| cr_email := "a@b.com"; cr_password := "x" |}.

Definition new_user : RegisterRequest :=
  {| rr_email := "a@b.com"; rr_password := "x"; rr_name := "Ann" |}.

Definition bad_credentials : Network :=
  replies 401 "Unauthorized" (Some (JObj [("detail", JStr "bad credentials")])).

Definition login_response : json :=
  JObj [("access_token", JStr "new-a"); ("refresh_token", JStr "new-r");
        ("token_type", JStr "bearer")].

Definition plain_text : RequestInit :=
  {| method := Some "POST"; body := Some "hello";
     headers := Some {[ "Content-Type" := "text/plain" ]} |}.

Definition buy_milk : TaskCreate :=
  {| tc_title := "Buy milk"; tc_description := None; tc_completed := None |}.

Definition buy_milk_task : json :=
  JObj [("id", JNum 1); ("title", JStr "Buy milk"); ("description", JNull);
        ("completed", JBool false); ("user_id", JStr "u1");
        ("created_at", JStr "t"); ("updated_at", JStr "t")].

(** The console output among the events. *)
Fixpoint console_events (evs : list event) : list event :=
  match evs with
  | [] => []
  | ConsoleLog msg data :: rest => ConsoleLog msg data :: console_events rest
  | ConsoleError msg data :: rest => ConsoleError msg data :: console_events rest
  | _ :: rest => console_events rest
  end.

(** How many times [response.json()] was called. *)
Fixpoint json_reads (evs : list event) : nat :=
  match evs with
  | [] => 0%nat
  | ReadJson :: rest => S (json_reads rest)
  | _ :: rest => json_reads rest
  end.

(** The [Authorization] header of the requests among the events. *)
Definition authorizations (evs : list event) : list (option string) :=
  map (fun sent => match headers (snd sent) with
                   | Some h => h !! "Authorization"
                   | None => None
                   end)
      (fetches evs).


Definition unreachable : Network := fun _ _ => None.


Definition only_access : gmap string string := {[ "accessToken" := "tok-a" ]}.


(** ** How a request runs *)

Lemma read_token_run (w : Window) :
  read_token w = (Return (stored_access_token w), w, []).
Proof. destruct w; reflexivity. Qed.

Lemma request_run c net endpoint options w :
  request c net endpoint options w =
    match response_to c net endpoint options w with
    | None =>
        (Throw FetchRejected, w,
         [request_log c endpoint options w;
          Fetch (baseUrl c +:+ endpoint) (sent_init w options)])
    | Some r =>
        match handle_response endpoint r w with
        | (o, w', evs) =>
            (o, w',
             request_log c endpoint options w
               :: Fetch (baseUrl c +:+ endpoint) (sent_init w options) :: evs)
        end
    end.
Proof.
  unfold request, response_to.
  unfold bind at 1. rewrite read_token_run.
  unfold bind at 1, console_log, emit.
  unfold bind at 1, fetch. unfold bind at 1, emit.
  fold (sent_init w options).
  destruct (net (baseUrl c +:+ endpoint) (sent_init w options)) as [r|];
    [|reflexivity].
  unfold ret at 1. simpl.
  destruct (handle_response endpoint r w) as [[o w'] evs]. reflexivity.
Qed.

(** [await response.json().catch(() => ({}))] followed by the read of
    [errorData.detail]: a body that is the literal [null] makes the read
    throw, every other body gives [detail_of]. *)
Lemma error_detail_run (r : Response) (w : Window) :
  (errorData <- catch (response_json r) (fun _ => ret (JObj [])) ;;
   get_detail errorData) w =
    match json_body r with
    | Some JNull => (Throw TypeError, w, [ReadJson])
    | _ => (Return (detail_of r), w, [ReadJson])
    end.
Proof.
  unfold bind, catch, response_json, emit, detail_of, bind.
  destruct (json_body r) as [[| | | | |]|]; reflexivity.
Qed.

Lemma handle_auth_failure endpoint r w :
  is_auth_status r = true ->
  handle_response endpoint r w =
    match json_body r with
    | Some JNull => (Throw TypeError, w, [ReadJson])
    | _ =>
        let errorDetail := auth_error_detail (detail_of r) in
        let logged := ConsoleError ("Auth Error: " +:+ errorDetail) (error_info endpoint r) in
        match w with
        | Some store =>
            (Throw (Error errorDetail),
             Some (delete "refreshToken" (delete "accessToken" store)),
             [ReadJson; logged; Navigate "/auth/signin"])
        | None => (Throw ReferenceError, None, [ReadJson; logged])
        end
    end.
Proof.
  unfold is_auth_status. intros Hs. unfold handle_response. rewrite Hs.
  unfold detail_of, bind, catch, response_json, emit, bind.
  destruct (json_body r) as [[| | | | |]|]; destruct w; reflexivity.
Qed.

Lemma handle_other_failure endpoint r w :
  is_auth_status r = false ->
  ok r = false ->
  handle_response endpoint r w =
    match json_body r with
    | Some JNull => (Throw TypeError, w, [ReadJson])
    | _ =>
        let errorDetail := api_error_detail (detail_of r) r in
        (Throw (Error errorDetail), w,
         [ReadJson; ConsoleError ("API Error: " +:+ errorDetail) (error_info endpoint r)])
    end.
Proof.
  unfold is_auth_status. intros Hs Hok. unfold handle_response. rewrite Hs, Hok.
  unfold detail_of, bind, catch, response_json, emit, bind.
  destruct (json_body r) as [[| | | | |]|]; reflexivity.
Qed.

Lemma ok_not_auth (r : Response) : ok r = true -> is_auth_status r = false.
Proof.
  unfold ok, is_auth_status. intros H.
  apply andb_true_iff in H as [_ H]. apply Z.leb_le in H.
  apply orb_false_iff. split; apply Z.eqb_neq; lia.
Qed.

Lemma handle_success endpoint r w :
  ok r = true ->
  handle_response endpoint r w =
    if status r =? 204 then (Return VUndefined, w, [])
    else match json_body r with
         | Some data =>
             (Return (VJson data), w,
              [ReadJson; ConsoleLog ("API Response: " +:+ endpoint) data])
         | None => (Throw JsonRejected, w, [ReadJson])
         end.
Proof.
  intros Hok. pose proof (ok_not_auth r Hok) as Hs. unfold is_auth_status in Hs.
  unfold handle_response. rewrite Hs, Hok. cbv beta iota delta [negb].
  destruct (status r =? 204); [reflexivity|].
  unfold bind, response_json, emit, console_log, emit, ret, throw.
  destruct (json_body r); reflexivity.
Qed.

(** ** Successful responses *)

(** C2. A 2xx response: with status 204 the call resolves with [undefined]
    and [response.json()] is never called, whatever the body holds; with
    any other success status the call resolves with the parsed JSON body,
    whatever its shape. *)
Theorem request_success c net endpoint options w r :
  response_to c net endpoint options w = Some r ->
  ok r = true ->
  (status r = 204 ->
     result_of (request c net endpoint options w) = Return VUndefined /\
     ~ In ReadJson (events_of (request c net endpoint options w))) /\
  (status r <> 204 ->
     forall data, json_body r = Some data ->
       result_of (request c net endpoint options w) = Return (VJson data)).
Proof.
  intros Hr Hok. rewrite request_run, Hr, (handle_success _ _ _ Hok).
  split.
  - intros ->. simpl. split; [reflexivity|].
    intros [H|[H|[]]]; discriminate H.
  - intros Hne data Hdata.
    destruct (Z.eqb_spec (status r) 204) as [E|_]; [contradiction|].
    rewrite Hdata. reflexivity.
Qed.

Lemma request_success_witness :
  (result_of (deleteTask local_client (replies 204 "No Content" (Some (JStr "ignored"))) 1
                (Some both_tokens)) = Return VUndefined /\
   ~ In ReadJson (events_of (deleteTask local_client
                    (replies 204 "No Content" (Some (JStr "ignored"))) 1 (Some both_tokens)))) /\
  result_of (getTasks local_client (replies 200 "OK" (Some (JArr [JNum 7]))) None)
    = Return (VJson (JArr [JNum 7])).
Proof.
  split.
  - apply (request_success local_client (replies 204 "No Content" (Some (JStr "ignored")))
             "/tasks/1" {| method := Some "DELETE"; body := None; headers := None |}
             (Some both_tokens) _ eq_refl eq_refl).
    reflexivity.
  - apply (request_success local_client (replies 200 "OK" (Some (JArr [JNum 7])))
             "/tasks/" no_options None _ eq_refl eq_refl).
    + discriminate.
    + reflexivity.
Defined.

(** ** Failures other than 401 and 403 *)




(** ** 401 and 403 *)

Lemma auth_status_cases (r : Response) :
  is_auth_status r = true <-> status r = 401 \/ status r = 403.
Proof.
  unfold is_auth_status. rewrite orb_true_iff, !Z.eqb_eq. reflexivity.
Qed.

Lemma cleared_lookup (store : gmap string string) (k : string) :
  delete "refreshToken" (delete "accessToken" store) !! k =
    if decide (k = "accessToken" \/ k = "refreshToken") then None else store !! k.
Proof.
  destruct (decide (k = "accessToken" \/ k = "refreshToken")) as [[-> | ->]|Hn].
  - rewrite lookup_delete_ne by discriminate. apply lookup_delete_eq.
  - apply lookup_delete_eq.
  - rewrite !lookup_delete_ne; [reflexivity| |]; intros <-; apply Hn; auto.
Qed.

Lemma handle_auth_failure_not_null endpoint r w :
  is_auth_status r = true ->
  json_body r <> Some JNull ->
  handle_response endpoint r w =
    match w with
    | Some store =>
        (Throw (Error (auth_error_detail (detail_of r))),
         Some (delete "refreshToken" (delete "accessToken" store)),
         [ReadJson;
          ConsoleError ("Auth Error: " +:+ auth_error_detail (detail_of r))
            (error_info endpoint r);
          Navigate "/auth/signin"])
    | None =>
        (Throw ReferenceError, None,
         [ReadJson;
          ConsoleError ("Auth Error: " +:+ auth_error_detail (detail_of r))
            (error_info endpoint r)])
    end.
Proof.
  intros Hs Hnull. rewrite (handle_auth_failure _ _ _ Hs). cbv zeta.
  generalize (detail_of r). intros d.
  destruct (json_body r) as [[| | | | |]|]; try reflexivity. contradiction.
Qed.

(** In a browser, a 401 or 403 whose body is anything but the literal
    [null]: both token entries are removed (the rest of the storage is
    kept), the browser is sent to the sign-in route, and the error thrown
    carries the extracted message: the [detail] string of the body when it
    has one, the serialized fallback when the body is missing or
    unparsable. *)
Theorem request_auth_failure_in_browser c net endpoint options store r :
  response_to c net endpoint options (Some store) = Some r ->
  status r = 401 \/ status r = 403 ->
  json_body r <> Some JNull ->
  result_of (request c net endpoint options (Some store))
    = Throw (Error (auth_error_detail (detail_of r))) /\
  (exists store',
     window_of (request c net endpoint options (Some store)) = Some store' /\
     store' !! "accessToken" = None /\
     store' !! "refreshToken" = None /\
     forall k, k <> "accessToken" -> k <> "refreshToken" -> store' !! k = store !! k) /\
  In (Navigate "/auth/signin") (events_of (request c net endpoint options (Some store))) /\
  (forall props s,
     json_body r = Some (JObj props) ->
     own_property "detail" props = VJson (JStr s) ->
     auth_error_detail (detail_of r) = s) /\
  (json_body r = None ->
     auth_error_detail (detail_of r) = JSON_stringify (JStr "Unauthorized")).
Proof.
  intros Hr Hs Hnull. apply auth_status_cases in Hs.
  rewrite request_run, Hr, (handle_auth_failure_not_null _ _ _ Hs Hnull). simpl.
  split; [reflexivity|]. split; [|split; [|split]].
  - exists (delete "refreshToken" (delete "accessToken" store)).
    split; [reflexivity|]. split; [|split].
    + rewrite cleared_lookup. rewrite decide_True by auto. reflexivity.
    + rewrite cleared_lookup. rewrite decide_True by auto. reflexivity.
    + intros k Ha Hf. rewrite cleared_lookup.
      rewrite decide_False by (intros [?|?]; contradiction). reflexivity.
  - auto 6.
  - intros props s Hb Hd. unfold detail_of. rewrite Hb, Hd. reflexivity.
  - intros Hb. unfold detail_of. rewrite Hb. reflexivity.
Qed.

Lemma request_auth_failure_in_browser_witness :
  result_of (login local_client bad_credentials a_at_b (Some both_tokens))
    = Throw (Error "bad credentials") /\
  In (Navigate "/auth/signin")
     (events_of (login local_client bad_credentials a_at_b (Some both_tokens))).
Proof.
  pose proof (request_auth_failure_in_browser local_client bad_credentials "/auth/login"
                (with_body "POST" (Credentials_object a_at_b)) both_tokens _
                eq_refl (or_introl eq_refl)) as H.
  destruct H as (Hres & _ & Hnav & _); [discriminate|].
  split; [exact Hres|exact Hnav].
Defined.

(** The sign-in example: [login] answered with 401 and the body
    [{"detail":"bad credentials"}] in a browser holding both tokens leaves
    an empty storage, navigates to the sign-in route and throws an error
    with the message of the body. *)
Example login_bad_credentials :
  login local_client bad_credentials a_at_b (Some both_tokens) =
    (Throw (Error "bad credentials"),
     Some ∅,
     [ConsoleLog "API Request: POST http://localhost:8000/auth/login"
        (JObj [("hasToken", JBool true)]);
      Fetch "http://localhost:8000/auth/login"
        (sent_init (Some both_tokens) (with_body "POST" (Credentials_object a_at_b)));
      ReadJson;
      ConsoleError "Auth Error: bad credentials"
        (JObj [("endpoint", JStr "/auth/login"); ("status", JNum 401)]);
      Navigate "/auth/signin"]).
Proof. vm_compute. reflexivity. Qed.

(** C1. Where the 401/403 path does not do what is documented.  A 401
    whose body is the JSON literal [null], in a browser holding both
    tokens: reading [errorData.detail] throws, so the tokens stay, nothing
    navigates and the error is the runtime's.  And with no window, a 401
    with a well-formed body: the navigation throws, and the error is the
    runtime's again, not the one carrying the message of the body. *)
Theorem login_401_not_cleared :
  login local_client (replies 401 "Unauthorized" (Some JNull)) a_at_b (Some both_tokens) =
    (Throw TypeError,
     Some both_tokens,
     [ConsoleLog "API Request: POST http://localhost:8000/auth/login"
        (JObj [("hasToken", JBool true)]);
      Fetch "http://localhost:8000/auth/login"
        (sent_init (Some both_tokens) (with_body "POST" (Credentials_object a_at_b)));
      ReadJson]) /\
  both_tokens !! "accessToken" = Some "tok-a" /\
  both_tokens !! "refreshToken" = Some "tok-r" /\
  result_of (login local_client bad_credentials a_at_b None) = Throw ReferenceError.
Proof. vm_compute. repeat split; reflexivity. Qed.



(** ** The message of an error response *)

Lemma quoted_Unauthorized :
  JSON_stringify (JStr "Unauthorized") = dquote +:+ "Unauthorized" +:+ dquote.
Proof. reflexivity. Qed.




(** ** The authentication check and logout *)

(** C5, where it fails as stated: an access-token entry is present, its
    value the empty string, and the check answers [false] in a browser. *)
Lemma isAuthenticated_empty_entry :
  ({[ "accessToken" := "" ]} : gmap string string) !! "accessToken" = Some "" /\
  result_of (isAuthenticated (Some {[ "accessToken" := "" ]})) = Return false.
Proof. split; vm_compute; reflexivity. Qed.

(** C5, as the code has it.  The check changes nothing and emits nothing;
    it answers [true] exactly when there is a window whose storage holds a
    non-empty string under the access-token key, and so [false] wherever
    there is no window. *)
Theorem isAuthenticated_true_iff (w : Window) :
  exists b,
    isAuthenticated w = (Return b, w, []) /\
    (b = true <->
       exists store t,
         w = Some store /\ store !! "accessToken" = Some t /\ t <> "") /\
    (w = None -> b = false).
Proof.
  destruct w as [store|].
  - destruct (store !! "accessToken") as [t|] eqn:Ht.
    + exists (truthy_string t). split; [|split].
      * unfold isAuthenticated, bind, window_defined, localStorage_getItem, ret.
        rewrite Ht. reflexivity.
      * split.
        -- intros Hb. exists store, t. repeat split; try assumption.
           intros ->. discriminate Hb.
        -- intros (store' & t' & Hw & Ht' & Hne). injection Hw as <-.
           rewrite Ht in Ht'. injection Ht' as <-.
           destruct t; [contradiction|reflexivity].
      * discriminate.
    + exists false. split; [|split].
      * unfold isAuthenticated, bind, window_defined, localStorage_getItem, ret.
        rewrite Ht. reflexivity.
      * split; [discriminate|].
        intros (store' & t' & Hw & Ht' & _). injection Hw as <-.
        rewrite Ht in Ht'. discriminate Ht'.
      * discriminate.
  - exists false. split; [reflexivity|]. split; [|reflexivity].
    split; [discriminate|]. intros (store' & t' & Hw & _). discriminate Hw.
Qed.

(** C7. [logout] returns normally and emits no event, so it sends no
    request; with a window, both token entries are gone afterwards and
    every other entry is as before; with no window nothing happens. *)
Theorem logout_clears_without_request (w : Window) :
  exists w',
    logout w = (Return tt, w', []) /\
    fetches (events_of (logout w)) = [] /\
    (forall store, w = Some store ->
       exists store',
         w' = Some store' /\
         store' !! "accessToken" = None /\
         store' !! "refreshToken" = None /\
         forall k, k <> "accessToken" -> k <> "refreshToken" ->
           store' !! k = store !! k) /\
    (w = None -> w' = None).
Proof.
  destruct w as [store|].
  - exists (Some (delete "refreshToken" (delete "accessToken" store))).
    split; [reflexivity|]. split; [reflexivity|]. split; [|discriminate].
    intros store' Hw. injection Hw as <-.
    exists (delete "refreshToken" (delete "accessToken" store)).
    split; [reflexivity|]. split; [|split].
    + rewrite cleared_lookup, decide_True by auto. reflexivity.
    + rewrite cleared_lookup, decide_True by auto. reflexivity.
    + intros k Ha Hf. rewrite cleared_lookup.
      rewrite decide_False by (intros [?|?]; contradiction). reflexivity.
  - exists None. repeat split; try reflexivity. discriminate.
Qed.

(** ** What is sent *)

Lemma handle_response_fetches endpoint r w :
  fetches (events_of (handle_response endpoint r w)) = [].
Proof.
  destruct (ok r) eqn:Hok.
  - rewrite (handle_success _ _ _ Hok).
    destruct (status r =? 204); [reflexivity|].
    destruct (json_body r); reflexivity.
  - destruct (is_auth_status r) eqn:Hs.
    + rewrite (handle_auth_failure _ _ _ Hs).
      destruct (json_body r) as [[| | | | |]|]; destruct w; reflexivity.
    + rewrite (handle_other_failure _ _ _ Hs Hok).
      destruct (json_body r) as [[| | | | |]|]; reflexivity.
Qed.

(** Every run of [request] calls [fetch] once, with the URL made of the
    base URL and the endpoint and with the merged headers. *)
Lemma request_fetches c net endpoint options w :
  fetches (events_of (request c net endpoint options w))
    = [(baseUrl c +:+ endpoint, sent_init w options)].
Proof.
  rewrite request_run.
  destruct (response_to c net endpoint options w) as [r|]; [|reflexivity].
  pose proof (handle_response_fetches endpoint r w) as Hf.
  destruct (handle_response endpoint r w) as [[o w'] evs].
  simpl in *. rewrite Hf. reflexivity.
Qed.

Lemma bearer_lookup (token : option string) (name : string) :
  bearer token !! name =
    match token with
    | Some t =>
        if truthy_string t
        then (if decide (name = "Authorization") then Some ("Bearer " +:+ t) else None)
        else None
    | None => None
    end.
Proof.
  unfold bearer. destruct token as [t|]; [|apply lookup_empty].
  destruct (truthy_string t); [|apply lookup_empty].
  destruct (decide (name = "Authorization")) as [->|Hn].
  - apply lookup_singleton_eq.
  - apply lookup_singleton_ne. congruence.
Qed.

(** The merged headers, name by name: the caller's value first, then the
    bearer header, then the default. *)
Lemma request_headers_lookup token options name :
  request_headers token options !! name =
    match default ∅ (headers options) !! name with
    | Some v => Some v
    | None =>
        match bearer token !! name with
        | Some v => Some v
        | None =>
            if decide (name = "Content-Type") then Some "application/json" else None
        end
    end.
Proof.
  unfold request_headers, spread.
  destruct (default ∅ (headers options) !! name) as [v|] eqn:Hc.
  - apply lookup_union_Some_l. exact Hc.
  - rewrite (lookup_union_r _ _ _ Hc).
    destruct (bearer token !! name) as [v|] eqn:Hb.
    + apply lookup_union_Some_l. exact Hb.
    + rewrite (lookup_union_r _ _ _ Hb).
      destruct (decide (name = "Content-Type")) as [->|Hn].
      * apply lookup_singleton_eq.
      * apply lookup_singleton_ne. congruence.
Qed.

Lemma truthy_string_true (t : string) : truthy_string t = true <-> t <> "".
Proof. destruct t; simpl; split; intros H; congruence. Qed.

(** C6. The one request a call sends keeps the caller's method and body,
    and its headers are the merge, name by name: a header the caller
    supplies goes out with the caller's value, whatever the defaults say;
    without one from the caller, [Content-Type] is [application/json],
    [Authorization] is the bearer header of the token read when that token
    is a non-empty string and absent otherwise, and no other header is
    sent. *)
Theorem request_headers_merged c net endpoint options w :
  exists h,
    fetches (events_of (request c net endpoint options w))
      = [(baseUrl c +:+ endpoint,
          {| method := method options; body := body options; headers := Some h |})] /\
    forall name,
      (forall supplied v,
         headers options = Some supplied -> supplied !! name = Some v ->
         h !! name = Some v) /\
      ((headers options = None \/
        exists supplied, headers options = Some supplied /\ supplied !! name = None) ->
       (name = "Content-Type" -> h !! name = Some "application/json") /\
       (name = "Authorization" ->
          (forall t, stored_access_token w = Some t -> t <> "" ->
             h !! name = Some ("Bearer " +:+ t)) /\
          (truthy_token (stored_access_token w) = false -> h !! name = None)) /\
       (name <> "Content-Type" -> name <> "Authorization" -> h !! name = None)).
Proof.
  exists (request_headers (stored_access_token w) options).
  split; [apply request_fetches|].
  intros name. rewrite request_headers_lookup, bearer_lookup. split.
  - intros supplied v Hh Hv. rewrite Hh. simpl. rewrite Hv. reflexivity.
  - intros Hc.
    assert (Hnone : default ∅ (headers options) !! name = None).
    { destruct Hc as [->|(supplied & -> & Hn)]; [apply lookup_empty|exact Hn]. }
    rewrite Hnone. split; [|split].
    + intros ->. destruct (stored_access_token w) as [t|]; [|reflexivity].
      destruct (truthy_string t); reflexivity.
    + intros ->. split.
      * intros t -> Hne. apply truthy_string_true in Hne. rewrite Hne. reflexivity.
      * intros Hf. destruct (stored_access_token w) as [t|]; [|reflexivity].
        simpl in Hf. rewrite Hf. reflexivity.
    + intros Hct Hau.
      destruct (stored_access_token w) as [t|]; [destruct (truthy_string t)|];
        repeat (rewrite decide_False by assumption); reflexivity.
Qed.

Lemma request_headers_merged_witness :
  exists h,
    fetches (events_of (request local_client (replies 200 "OK" (Some JNull)) "/tasks/"
                          plain_text (Some both_tokens)))
      = [("http://localhost:8000/tasks/",
          {| method := Some "POST"; body := Some "hello"; headers := Some h |})] /\
    h !! "Content-Type" = Some "text/plain" /\
    h !! "Authorization" = Some "Bearer tok-a" /\
    h !! "Accept" = None.
Proof.
  destruct (request_headers_merged local_client (replies 200 "OK" (Some JNull)) "/tasks/"
              plain_text (Some both_tokens)) as (h & Hf & Hn).
  exists h. split; [exact Hf|]. split; [|split].
  - apply (proj1 (Hn "Content-Type") {[ "Content-Type" := "text/plain" ]} "text/plain");
      reflexivity.
  - refine (proj1 (proj1 (proj2 (proj2 (Hn "Authorization") _)) eq_refl) "tok-a" eq_refl _).
    + right. exists {[ "Content-Type" := "text/plain" ]}. split; reflexivity.
    + discriminate.
  - refine (proj2 (proj2 (proj2 (Hn "Accept") _)) _ _).
    + right. exists {[ "Content-Type" := "text/plain" ]}. split; reflexivity.
    + discriminate.
    + discriminate.
Defined.

(** Each operation is one call of [request], and none supplies headers. *)
Lemma perform_request c net op :
  perform c net op = request c net (endpoint_of op) (options_of op).
Proof. destruct op; reflexivity. Qed.

Lemma options_of_headers (op : call) : headers (options_of op) = None.
Proof. destruct op; reflexivity. Qed.

(** C3, where it fails as stated: in a browser whose storage has an
    access-token entry holding the empty string, the request goes out with
    the content type alone; the claim has it carry an [Authorization]
    header. *)
Lemma empty_token_no_authorization :
  stored_access_token (Some {[ "accessToken" := "" ]}) = Some "" /\
  fetches (events_of (getTasks local_client (replies 200 "OK" (Some (JArr [])))
                        (Some {[ "accessToken" := "" ]})))
    = [("http://localhost:8000/tasks/",
        {| method := None; body := None;
           headers := Some {[ "Content-Type" := "application/json" ]} |})] /\
  ({[ "Content-Type" := "application/json" ]} : gmap string string) !! "Authorization"
    = None.
Proof. repeat split; vm_compute; reflexivity. Qed.

(** C3, as the code has it.  Every operation sends one request.  In a
    browser whose storage holds a non-empty string under the access-token
    key, the request carries [Authorization: Bearer] followed by that
    string.  With no entry under the key, with an entry that is the empty
    string, or with no window, it carries no [Authorization] header. *)
Theorem perform_authorization c net op w :
  exists url init h,
    fetches (events_of (perform c net op w)) = [(url, init)] /\
    headers init = Some h /\
    (forall store t,
       w = Some store -> store !! "accessToken" = Some t -> t <> "" ->
       h !! "Authorization" = Some ("Bearer " +:+ t)) /\
    (forall store,
       w = Some store -> store !! "accessToken" = None ->
       h !! "Authorization" = None) /\
    (forall store,
       w = Some store -> store !! "accessToken" = Some "" ->
       h !! "Authorization" = None) /\
    (w = None -> h !! "Authorization" = None).
Proof.
  exists (baseUrl c +:+ endpoint_of op), (sent_init w (options_of op)),
         (request_headers (stored_access_token w) (options_of op)).
  split; [rewrite perform_request; apply request_fetches|].
  split; [reflexivity|].
  rewrite request_headers_lookup, bearer_lookup, options_of_headers. simpl.
  rewrite lookup_empty.
  split; [|split; [|split]].
  - intros store t -> Ht Hne. simpl. rewrite Ht.
    apply truthy_string_true in Hne. rewrite Hne. reflexivity.
  - intros store -> Ht. simpl. rewrite Ht. reflexivity.
  - intros store -> Ht. simpl. rewrite Ht. reflexivity.
  - intros ->. reflexivity.
Qed.

Lemma perform_authorization_witness :
  exists url init h,
    fetches (events_of (perform local_client (replies 200 "OK" (Some (JArr []))) GetTasks
                          (Some both_tokens)))
      = [(url, init)] /\
    headers init = Some h /\
    h !! "Authorization" = Some "Bearer tok-a".
Proof.
  destruct (perform_authorization local_client (replies 200 "OK" (Some (JArr []))) GetTasks
              (Some both_tokens)) as (url & init & h & Hf & Hh & Hsome & _).
  exists url, init, h. split; [exact Hf|]. split; [exact Hh|].
  apply (Hsome both_tokens "tok-a"); [reflexivity|reflexivity|discriminate].
Defined.

(** ** Register and login *)

(** A call of [request] that returns has received a 2xx response and
    leaves the window as it found it. *)
Lemma request_return c net endpoint options w v :
  result_of (request c net endpoint options w) = Return v ->
  window_of (request c net endpoint options w) = w /\
  exists r,
    response_to c net endpoint options w = Some r /\ ok r = true.
Proof.
  rewrite request_run.
  destruct (response_to c net endpoint options w) as [r|]; [|discriminate].
  destruct (ok r) eqn:Hok.
  - rewrite (handle_success _ _ _ Hok).
    destruct (status r =? 204).
    + intros _. split; [reflexivity|]. exists r. split; [reflexivity|exact Hok].
    + destruct (json_body r); [|discriminate].
      intros _. split; [reflexivity|]. exists r. split; [reflexivity|exact Hok].
  - destruct (is_auth_status r) eqn:Hs.
    + rewrite (handle_auth_failure _ _ _ Hs).
      destruct (json_body r) as [[| | | | |]|]; destruct w; discriminate.
    + rewrite (handle_other_failure _ _ _ Hs Hok).
      destruct (json_body r) as [[| | | | |]|]; discriminate.
Qed.

(** A 2xx response other than 204 with a JSON body: the call returns that
    body and the window is as before. *)
Lemma request_parsed c net endpoint options w r data :
  response_to c net endpoint options w = Some r ->
  ok r = true ->
  status r <> 204 ->
  json_body r = Some data ->
  result_of (request c net endpoint options w) = Return (VJson data) /\
  window_of (request c net endpoint options w) = w.
Proof.
  intros Hr Hok Hne Hdata. rewrite request_run, Hr, (handle_success _ _ _ Hok).
  destruct (Z.eqb_spec (status r) 204) as [E|_]; [contradiction|].
  rewrite Hdata. split; reflexivity.
Qed.

(** C8. [register] and [login]: answered with a 2xx status other than 204
    and a JSON body, each returns that body as parsed; and whenever one of
    them returns, the window is the one it started with, so the storage,
    both token keys included, holds what it held. *)
Theorem register_login_not_persisted c net w :
  (forall userData,
     (forall r data,
        response_to c net "/auth/register"
          (with_body "POST" (RegisterRequest_object userData)) w = Some r ->
        ok r = true -> status r <> 204 -> json_body r = Some data ->
        result_of (register c net userData w) = Return (VJson data)) /\
     (forall v,
        result_of (register c net userData w) = Return v ->
        window_of (register c net userData w) = w /\
        stored_access_token (window_of (register c net userData w))
          = stored_access_token w)) /\
  (forall credentials,
     (forall r data,
        response_to c net "/auth/login"
          (with_body "POST" (Credentials_object credentials)) w = Some r ->
        ok r = true -> status r <> 204 -> json_body r = Some data ->
        result_of (login c net credentials w) = Return (VJson data)) /\
     (forall v,
        result_of (login c net credentials w) = Return v ->
        window_of (login c net credentials w) = w /\
        stored_access_token (window_of (login c net credentials w))
          = stored_access_token w)).
Proof.
  split.
  - intros userData. unfold register. split.
    + intros r data Hr Hok Hne Hdata.
      exact (proj1 (request_parsed _ _ _ _ _ _ _ Hr Hok Hne Hdata)).
    + intros v Hv. destruct (request_return _ _ _ _ _ _ Hv) as [Hw _].
      rewrite Hw. split; reflexivity.
  - intros credentials. unfold login. split.
    + intros r data Hr Hok Hne Hdata.
      exact (proj1 (request_parsed _ _ _ _ _ _ _ Hr Hok Hne Hdata)).
    + intros v Hv. destruct (request_return _ _ _ _ _ _ Hv) as [Hw _].
      rewrite Hw. split; reflexivity.
Qed.

Lemma register_login_not_persisted_witness :
  (result_of (register local_client (replies 201 "Created" (Some login_response)) new_user
                (Some ∅))
     = Return (VJson login_response) /\
   window_of (register local_client (replies 201 "Created" (Some login_response)) new_user
                (Some ∅))
     = Some ∅) /\
  (result_of (login local_client (replies 200 "OK" (Some login_response)) a_at_b
                (Some both_tokens))
     = Return (VJson login_response) /\
   window_of (login local_client (replies 200 "OK" (Some login_response)) a_at_b
                (Some both_tokens))
     = Some both_tokens).
Proof.
  split.
  - destruct (register_login_not_persisted local_client
                (replies 201 "Created" (Some login_response)) (Some ∅)) as [Hreg _].
    destruct (Hreg new_user) as [Hres Hwin].
    assert (Hret : result_of (register local_client
                     (replies 201 "Created" (Some login_response)) new_user (Some ∅))
                   = Return (VJson login_response)).
    { apply (Hres _ login_response eq_refl eq_refl); [discriminate|reflexivity]. }
    split; [exact Hret|]. exact (proj1 (Hwin _ Hret)).
  - destruct (register_login_not_persisted local_client
                (replies 200 "OK" (Some login_response)) (Some both_tokens)) as [_ Hlog].
    destruct (Hlog a_at_b) as [Hres Hwin].
    assert (Hret : result_of (login local_client
                     (replies 200 "OK" (Some login_response)) a_at_b (Some both_tokens))
                   = Return (VJson login_response)).
    { apply (Hres _ login_response eq_refl eq_refl); [discriminate|reflexivity]. }
    split; [exact Hret|]. exact (proj1 (Hwin _ Hret)).
Defined.

(** ** The task examples *)

(** [createTask({title: "Buy milk"})] posts the serialized task to
    [/tasks/] and returns the task the server answers with, unchanged. *)
Example createTask_buy_milk :
  createTask local_client (replies 201 "Created" (Some buy_milk_task)) buy_milk
    (Some both_tokens) =
    (Return (VJson buy_milk_task),
     Some both_tokens,
     [ConsoleLog "API Request: POST http://localhost:8000/tasks/"
        (JObj [("hasToken", JBool true)]);
      Fetch "http://localhost:8000/tasks/"
        {| method := Some "POST";
           body := Some ("{" +:+ dquote +:+ "title" +:+ dquote +:+ ":"
                         +:+ dquote +:+ "Buy milk" +:+ dquote +:+ "}");
           headers := Some (<["Authorization" := "Bearer tok-a"]>
                              {[ "Content-Type" := "application/json" ]}) |};
      ReadJson;
      ConsoleLog "API Response: /tasks/" buy_milk_task]).
Proof. vm_compute. reflexivity. Qed.

(** [deleteTask(1)] answered with 204 and no body resolves with
    [undefined] and never reads the body. *)
Example deleteTask_no_content :
  deleteTask local_client (replies 204 "No Content" None) 1 (Some both_tokens) =
    (Return VUndefined,
     Some both_tokens,
     [ConsoleLog "API Request: DELETE http://localhost:8000/tasks/1"
        (JObj [("hasToken", JBool true)]);
      Fetch "http://localhost:8000/tasks/1"
        {| method := Some "DELETE"; body := None;
           headers := Some (<["Authorization" := "Bearer tok-a"]>
                              {[ "Content-Type" := "application/json" ]}) |}]).
Proof. vm_compute. reflexivity. Qed.

(** ** Every way a request can end *)

(** The run of [handle_response], case by case. *)
Lemma handle_response_cases endpoint r w :
  handle_response endpoint r w =
    if is_auth_status r then
      match json_body r with
      | Some JNull => (Throw TypeError, w, [ReadJson])
      | _ =>
          match w with
          | Some store =>
              (Throw (Error (auth_error_detail (detail_of r))),
               Some (delete "refreshToken" (delete "accessToken" store)),
               [ReadJson;
                ConsoleError ("Auth Error: " +:+ auth_error_detail (detail_of r))
                  (error_info endpoint r);
                Navigate "/auth/signin"])
          | None =>
              (Throw ReferenceError, None,
               [ReadJson;
                ConsoleError ("Auth Error: " +:+ auth_error_detail (detail_of r))
                  (error_info endpoint r)])
          end
      end
    else if ok r then
      if status r =? 204 then (Return VUndefined, w, [])
      else match json_body r with
           | Some data =>
               (Return (VJson data), w,
                [ReadJson; ConsoleLog ("API Response: " +:+ endpoint) data])
           | None => (Throw JsonRejected, w, [ReadJson])
           end
    else
      match json_body r with
      | Some JNull => (Throw TypeError, w, [ReadJson])
      | _ =>
          (Throw (Error (api_error_detail (detail_of r) r)), w,
           [ReadJson;
            ConsoleError ("API Error: " +:+ api_error_detail (detail_of r) r)
              (error_info endpoint r)])
      end.
Proof.
  destruct (is_auth_status r) eqn:Hs.
  - apply (handle_auth_failure _ _ _ Hs).
  - destruct (ok r) eqn:Hok.
    + apply (handle_success _ _ _ Hok).
    + apply (handle_other_failure _ _ _ Hs Hok).
Qed.

(** Splits a goal about a run of [request] into the ways it can end. *)
Ltac request_cases c net endpoint options w :=
  let r := fresh "r" in
  let Hr := fresh "Hr" in
  let Hs := fresh "Hs" in
  let Hok := fresh "Hok" in
  let H204 := fresh "H204" in
  let Hb := fresh "Hb" in
  rewrite ?perform_request;
  rewrite (request_run c net endpoint options w);
  destruct (response_to c net endpoint options w) as [r|] eqn:Hr;
  [ rewrite (handle_response_cases endpoint r w);
    destruct (is_auth_status r) eqn:Hs;
    [ destruct (json_body r) as [[| | | | |]|] eqn:Hb; destruct w
    | destruct (ok r) eqn:Hok;
      [ destruct (status r =? 204) eqn:H204;
        [ | destruct (json_body r) eqn:Hb ]
      | destruct (json_body r) as [[| | | | |]|] eqn:Hb ] ]
  | ];
  cbn [result_of window_of events_of fst snd].

(** When the transport fails, the call rejects with the transport's
    failure and nothing else happens: the window is as before, and after
    the request log and the [fetch] there is no body read, no error log
    and no navigation. *)
Theorem request_transport_failure c net endpoint options w :
  response_to c net endpoint options w = None ->
  result_of (request c net endpoint options w) = Throw FetchRejected /\
  window_of (request c net endpoint options w) = w /\
  events_of (request c net endpoint options w)
    = [request_log c endpoint options w;
       Fetch (baseUrl c +:+ endpoint) (sent_init w options)].
Proof.
  intros Hnone. rewrite request_run, Hnone. repeat split.
Qed.

Lemma request_transport_failure_witness :
  result_of (getTasks local_client unreachable (Some both_tokens)) = Throw FetchRejected /\
  window_of (getTasks local_client unreachable (Some both_tokens)) = Some both_tokens.
Proof.
  destruct (request_transport_failure local_client unreachable "/tasks/" no_options
              (Some both_tokens) eq_refl) as (Hres & Hwin & _).
  split; [exact Hres|exact Hwin].
Defined.

(** On the success path there is no fallback for the body: a 2xx response
    other than 204 whose body is missing or no JSON makes the call reject
    with the failure of [response.json()]; the window is as before, no
    error is logged and nothing navigates. *)
Theorem request_success_unparsable c net endpoint options w r :
  response_to c net endpoint options w = Some r ->
  ok r = true ->
  status r <> 204 ->
  json_body r = None ->
  result_of (request c net endpoint options w) = Throw JsonRejected /\
  window_of (request c net endpoint options w) = w /\
  console_events (events_of (request c net endpoint options w))
    = [request_log c endpoint options w] /\
  forall href, ~ In (Navigate href) (events_of (request c net endpoint options w)).
Proof.
  intros Hr Hok Hne Hb.
  rewrite request_run, Hr, (handle_success _ _ _ Hok), Hb.
  destruct (Z.eqb_spec (status r) 204) as [E|_]; [contradiction|].
  cbn. repeat split.
  intros href [H|[H|[H|[]]]]; discriminate H.
Qed.

Lemma request_success_unparsable_witness :
  result_of (deleteTask local_client (replies 200 "OK" None) 1 (Some both_tokens))
    = Throw JsonRejected.
Proof.
  refine (proj1 (request_success_unparsable local_client (replies 200 "OK" None)
                   "/tasks/1" {| method := Some "DELETE"; body := None; headers := None |}
                   (Some both_tokens) _ eq_refl eq_refl _ eq_refl)).
  discriminate.
Defined.

(** A call of [request] returns normally exactly when the transport
    answered with a 2xx status and either the status is 204 or the body
    is JSON; in every other case it throws. *)
Theorem request_returns_iff c net endpoint options w :
  (exists v, result_of (request c net endpoint options w) = Return v) <->
  (exists r,
     response_to c net endpoint options w = Some r /\
     ok r = true /\
     (status r = 204 \/ exists data, json_body r = Some data)).
Proof.
  split.
  - intros [v Hv]. revert Hv.
    request_cases c net endpoint options w; try discriminate; intros _;
      exists r; (split; [reflexivity|]); (split; [assumption|]).
    + left. apply Z.eqb_eq. assumption.
    + right. eexists. eassumption.
  - intros (r & Hr & Hok & Hcase).
    rewrite request_run, Hr, (handle_success _ _ _ Hok).
    destruct (status r =? 204) eqn:H204; [eexists; reflexivity|].
    destruct Hcase as [E|[data Hd]].
    + apply Z.eqb_neq in H204. contradiction.
    + rewrite Hd. eexists. reflexivity.
Qed.

(** ** What a request leaves alone *)

(** The window after a request: the one before, or, after a 401 or 403
    in a browser, the storage without the two token entries. *)
Lemma window_after_request c net endpoint options w :
  window_of (request c net endpoint options w) = w \/
  exists store r,
    w = Some store /\
    response_to c net endpoint options w = Some r /\
    is_auth_status r = true /\
    window_of (request c net endpoint options w)
      = Some (delete "refreshToken" (delete "accessToken" store)).
Proof.
  request_cases c net endpoint options w; try (left; reflexivity);
    right; eexists; exists r; repeat split; assumption.
Qed.

(** The client never writes to the storage.  Through any request a window
    stays a window and no window stays none; every entry found afterwards
    was there before with the same value; every entry other than the two
    token entries is as before; and the storage differs at all only after
    a response with status 401 or 403. *)
Theorem request_never_writes_storage c net endpoint options w :
  (w = None -> window_of (request c net endpoint options w) = None) /\
  (forall store, w = Some store ->
     exists store',
       window_of (request c net endpoint options w) = Some store' /\
       (forall k v, store' !! k = Some v -> store !! k = Some v) /\
       (forall k, k <> "accessToken" -> k <> "refreshToken" ->
          store' !! k = store !! k)) /\
  (window_of (request c net endpoint options w) <> w ->
     exists r,
       response_to c net endpoint options w = Some r /\
       (status r = 401 \/ status r = 403)).
Proof.
  destruct (window_after_request c net endpoint options w)
    as [Hsame|(store & r & Hw & Hr & Hs & Hcleared)].
  - rewrite Hsame. split; [intros H; exact H|]. split; [|intros H; contradiction].
    intros store ->. exists store. repeat split; auto.
  - rewrite Hcleared. split; [intros ->; discriminate Hw|]. split.
    + intros store0 Hw0. rewrite Hw in Hw0. injection Hw0 as <-.
      eexists. split; [reflexivity|]. split.
      * intros k v. rewrite cleared_lookup.
        destruct (decide (k = "accessToken" \/ k = "refreshToken")); [discriminate|auto].
      * intros k Ha Hf. rewrite cleared_lookup.
        rewrite decide_False by (intros [?|?]; contradiction). reflexivity.
    + intros _. exists r. split; [exact Hr|]. apply auth_status_cases. exact Hs.
Qed.



(** The body of a response is read at most once in a request, whatever
    the path taken; it is not read at all exactly when the transport
    failed or the response is a 2xx with status 204. *)
Theorem body_read_at_most_once c net endpoint options w :
  (json_reads (events_of (request c net endpoint options w)) <= 1)%nat /\
  (json_reads (events_of (request c net endpoint options w)) = 0%nat <->
     response_to c net endpoint options w = None \/
     exists r,
       response_to c net endpoint options w = Some r /\ ok r = true /\ status r = 204).
Proof.
  split; [|split].
  - request_cases c net endpoint options w; unfold request_log; cbn; lia.
  - request_cases c net endpoint options w; unfold request_log; cbn;
      intros H; try discriminate H.
    + right. exists r. repeat split; [assumption|apply Z.eqb_eq; assumption].
    + left. reflexivity.
  - intros [Hn|(r & Hr & Hok & H204)]; rewrite request_run.
    + rewrite Hn. reflexivity.
    + rewrite Hr, (handle_success _ _ _ Hok), H204. reflexivity.
Qed.

(** ** What a request depends on *)

Lemma handle_response_store endpoint r (s1 s2 : gmap string string) :
  result_of (handle_response endpoint r (Some s1))
    = result_of (handle_response endpoint r (Some s2)) /\
  events_of (handle_response endpoint r (Some s1))
    = events_of (handle_response endpoint r (Some s2)).
Proof.
  rewrite !handle_response_cases.
  destruct (is_auth_status r), (ok r), (status r =? 204),
    (json_body r) as [[| | | | |]|]; split; reflexivity.
Qed.


(** Of the storage a request reads the access token and nothing else: two
    browsers whose storages agree on that entry, whatever else they hold,
    a refresh token included, send the same request, log the same lines
    and end the same way. *)
Theorem request_reads_only_access_token c net endpoint options
    (s1 s2 : gmap string string) :
  s1 !! "accessToken" = s2 !! "accessToken" ->
  result_of (request c net endpoint options (Some s1))
    = result_of (request c net endpoint options (Some s2)) /\
  events_of (request c net endpoint options (Some s1))
    = events_of (request c net endpoint options (Some s2)).
Proof.
  intros H. rewrite !request_run.
  unfold response_to, request_log, sent_init. cbn [stored_access_token]. rewrite H.
  destruct (net _ _) as [r|]; [|split; reflexivity].
  pose proof (handle_response_store endpoint r s1 s2) as [Hres Hev].
  destruct (handle_response endpoint r (Some s1)) as [[o1 w1] e1].
  destruct (handle_response endpoint r (Some s2)) as [[o2 w2] e2].
  cbn in *. subst. split; reflexivity.
Qed.

Lemma request_reads_only_access_token_witness :
  events_of (request local_client bad_credentials "/tasks/" no_options (Some both_tokens))
    = events_of (request local_client bad_credentials "/tasks/" no_options
                   (Some only_access)).
Proof.
  apply (request_reads_only_access_token local_client bad_credentials "/tasks/"
           no_options both_tokens only_access).
  reflexivity.
Defined.



(** ** Signed in, signed out *)

Lemma isAuthenticated_run (w : Window) :
  isAuthenticated w = (Return (truthy_token (stored_access_token w)), w, []).
Proof. destruct w; reflexivity. Qed.

(** The [Authorization] header each operation sends. *)
Lemma perform_authorizations c net op w :
  authorizations (events_of (perform c net op w)) =
    [match stored_access_token w with
     | Some t => if truthy_string t then Some ("Bearer " +:+ t) else None
     | None => None
     end].
Proof.
  unfold authorizations. rewrite perform_request, request_fetches.
  cbn [map snd headers sent_init].
  rewrite request_headers_lookup, bearer_lookup, options_of_headers.
  cbn [default]. rewrite lookup_empty.
  destruct (stored_access_token w) as [t|]; [|reflexivity].
  destruct (truthy_string t); reflexivity.
Qed.

Lemma cleared_twice (store : gmap string string) :
  delete "refreshToken" (delete "accessToken"
    (delete "refreshToken" (delete "accessToken" store)))
  = delete "refreshToken" (delete "accessToken" store).
Proof.
  apply map_eq. intros k. rewrite !cleared_lookup.
  destruct (decide (k = "accessToken" \/ k = "refreshToken")); reflexivity.
Qed.

(** [isAuthenticated] and the requests agree: the check answers [true]
    exactly when each operation started in the same window sends a bearer
    [Authorization] header, the one of the stored token, and [false]
    exactly when it sends none. *)
Theorem isAuthenticated_iff_bearer_sent c net op (w : Window) :
  (result_of (isAuthenticated w) = Return true <->
     exists t,
       stored_access_token w = Some t /\
       authorizations (events_of (perform c net op w)) = [Some ("Bearer " +:+ t)]) /\
  (result_of (isAuthenticated w) = Return false <->
     authorizations (events_of (perform c net op w)) = [None]).
Proof.
  rewrite isAuthenticated_run, perform_authorizations. cbn [result_of fst].
  destruct (stored_access_token w) as [t|]; cbn [truthy_token].
  - destruct (truthy_string t); split; split.
    + intros _. exists t. split; reflexivity.
    + intros _. reflexivity.
    + discriminate.
    + discriminate.
    + discriminate.
    + intros (t' & _ & H). discriminate H.
    + intros _. reflexivity.
    + intros _. reflexivity.
  - split; split.
    + discriminate.
    + intros (t' & Ht & _). discriminate Ht.
    + intros _. reflexivity.
    + intros _. reflexivity.
Qed.

(** Logging out twice is logging out once. *)
Theorem logout_idempotent (w : Window) :
  (logout ;; logout) w = logout w.
Proof.
  destruct w as [store|]; [|reflexivity].
  unfold logout, bind, window_defined, localStorage_removeItem, ret.
  cbn. rewrite cleared_twice. reflexivity.
Qed.

(** After [logout] the client is signed out: [isAuthenticated] answers
    [false] and whatever operation comes next is sent without an
    [Authorization] header, in any window and whatever was stored. *)
Theorem logout_signs_out c net op (w : Window) :
  result_of ((logout ;; isAuthenticated) w) = Return false /\
  authorizations (events_of (perform c net op (window_of (logout w)))) = [None].
Proof.
  rewrite perform_authorizations.
  destruct w as [store|]; [|split; reflexivity].
  unfold logout, bind, window_defined, localStorage_removeItem, ret, isAuthenticated,
    localStorage_getItem, bind.
  cbn. rewrite cleared_lookup, decide_True by auto. split; reflexivity.
Qed.

(** A 401 or 403 signs the browser out: after such a response (its body
    not the literal [null]), [isAuthenticated] answers [false] and the next
    operation, whichever it is, goes out without an [Authorization]
    header. *)
Theorem auth_failure_signs_out c net endpoint options store r :
  response_to c net endpoint options (Some store) = Some r ->
  status r = 401 \/ status r = 403 ->
  json_body r <> Some JNull ->
  result_of (isAuthenticated (window_of (request c net endpoint options (Some store))))
    = Return false /\
  forall net' op,
    authorizations
      (events_of (perform c net' op
                    (window_of (request c net endpoint options (Some store)))))
    = [None].
Proof.
  intros Hr Hs Hnull. apply auth_status_cases in Hs.
  rewrite request_run, Hr, (handle_auth_failure_not_null _ _ _ Hs Hnull).
  cbn [window_of fst snd].
  assert (Hgone : stored_access_token
                    (Some (delete "refreshToken" (delete "accessToken" store))) = None).
  { cbn. rewrite cleared_lookup, decide_True by auto. reflexivity. }
  split.
  - rewrite isAuthenticated_run, Hgone. reflexivity.
  - intros net' op. rewrite perform_authorizations, Hgone. reflexivity.
Qed.

Lemma auth_failure_signs_out_witness :
  result_of (isAuthenticated
               (window_of (request local_client bad_credentials "/tasks/" no_options
                             (Some both_tokens))))
    = Return false.
Proof.
  refine (proj1 (auth_failure_signs_out local_client bad_credentials "/tasks/" no_options
                   both_tokens _ eq_refl (or_introl eq_refl) _)).
  discriminate.
Defined.

(** ** Where requests go *)

(** The base URL of a constructed client is the configured one, except
    that a configuration that is unset or the empty string gives the local
    default; so it is never empty. *)
Theorem new_ApiClient_baseUrl (configured : option string) :
  (forall url, configured = Some url -> url <> "" ->
     baseUrl (new_ApiClient configured) = url) /\
  (configured = None \/ configured = Some "" ->
     baseUrl (new_ApiClient configured) = "http://localhost:8000") /\
  baseUrl (new_ApiClient configured) <> "".
Proof.
  unfold new_ApiClient. cbn [baseUrl]. split; [|split].
  - intros url -> Hne. cbn. apply truthy_string_true in Hne. rewrite Hne. reflexivity.
  - intros [->| ->]; reflexivity.
  - destruct configured as [[|a url]|]; cbn; discriminate.
Qed.



(** Reading a printed number back gives the number. *)
Lemma num_to_string_parsed (n : Z) :
  NilZero.int_of_string (num_to_string n) = Some (Z.to_int n).
Proof.
  unfold num_to_string. apply NilZero.isi.
  - destruct n; cbn; try discriminate.
    intros H. injection H as H. exact (Unsigned.to_uint_nonnil _ H).
  - destruct n; cbn; try discriminate.
    intros H. injection H as H. exact (Unsigned.to_uint_nonnil _ H).
Qed.






(** ** More on error messages and on signing in *)

Lemma num_to_string_nonempty (n : Z) : num_to_string n <> "".
Proof.
  intros H. pose proof (num_to_string_parsed n) as Hp. rewrite H in Hp.
  discriminate Hp.
Qed.

Lemma JSON_stringify_nonempty (j : json) : JSON_stringify j <> "".
Proof.
  destruct j as [|[|]|n|s|items|props]; cbn; try discriminate.
  apply num_to_string_nonempty.
Qed.

Lemma auth_error_detail_empty (d : value) :
  auth_error_detail d = "" <-> d = VJson (JStr "").
Proof.
  split; [|intros ->; reflexivity].
  destruct d as [|j]; [discriminate|].
  destruct j as [|b|n|s|items|props]; cbn [auth_error_detail];
    try (intros H; exfalso; revert H; apply JSON_stringify_nonempty).
  intros ->. reflexivity.
Qed.

Lemma api_error_detail_empty (d : value) (r : Response) :
  api_error_detail d r = "" <-> d = VJson (JStr "").
Proof.
  split; [|intros ->; reflexivity].
  destruct d as [|j]; [discriminate|].
  destruct j as [|b|n|s|items|props]; cbn [api_error_detail];
    try destruct (truthy_json _);
    try discriminate;
    try (intros H; exfalso; revert H; apply JSON_stringify_nonempty).
  intros ->. reflexivity.
Qed.

(** An error response whose body is not the literal [null] (and, for 401
    and 403, in a browser) always ends in an [Error] with a message, and
    the message is empty in one case only: the body's [detail] is the
    empty string, which is a string and so is passed on as it is instead
    of giving way to a fallback. *)
Theorem error_message_empty_iff c net endpoint options w r :
  response_to c net endpoint options w = Some r ->
  ok r = false ->
  json_body r <> Some JNull ->
  (is_auth_status r = true -> exists store, w = Some store) ->
  exists message,
    result_of (request c net endpoint options w) = Throw (Error message) /\
    (message = "" <-> detail_of r = VJson (JStr "")).
Proof.
  intros Hr Hok Hnull Hwin. rewrite request_run, Hr.
  destruct (is_auth_status r) eqn:Hs.
  - destruct (Hwin eq_refl) as [store ->].
    rewrite (handle_auth_failure_not_null _ _ _ Hs Hnull).
    eexists. split; [reflexivity|]. apply auth_error_detail_empty.
  - rewrite (handle_other_failure _ _ _ Hs Hok).
    exists (api_error_detail (detail_of r) r). split.
    + destruct (json_body r) as [[| | | | |]|]; try reflexivity. contradiction.
    + apply api_error_detail_empty.
Qed.

Lemma error_message_empty_iff_witness :
  exists message,
    result_of (getTasks local_client
                 (replies 400 "Bad Request" (Some (JObj [("detail", JStr "")])))
                 None)
      = Throw (Error message) /\
    message = "".
Proof.
  destruct (error_message_empty_iff local_client
              (replies 400 "Bad Request" (Some (JObj [("detail", JStr "")])))
              "/tasks/" no_options None _ eq_refl eq_refl) as (message & Hres & Hiff).
  - discriminate.
  - discriminate.
  - exists message. split; [exact Hres|]. apply Hiff. reflexivity.
Defined.

(** A request can sign the browser out, never in: if [isAuthenticated]
    answers [true] after a request, it answered [true] before it; and a
    request that returns normally leaves the answer as it was. *)
Theorem request_never_signs_in c net endpoint options (w : Window) :
  (result_of (isAuthenticated (window_of (request c net endpoint options w)))
     = Return true ->
   result_of (isAuthenticated w) = Return true) /\
  (forall v,
     result_of (request c net endpoint options w) = Return v ->
     result_of (isAuthenticated (window_of (request c net endpoint options w)))
       = result_of (isAuthenticated w)).
Proof.
  split.
  - destruct (window_after_request c net endpoint options w)
      as [->|(store & r & -> & _ & _ & ->)]; [intros H; exact H|].
    rewrite isAuthenticated_run. cbn.
    rewrite cleared_lookup, decide_True by auto. discriminate.
  - intros v Hv. destruct (request_return _ _ _ _ _ _ Hv) as [-> _]. reflexivity.
Qed.
